(** * Log view resolution (logs_shared/common/log_views/resolved_log_view.ts)

    A shallow embedding of [resolveLogView] and of its three branch
    functions, together with the localized constant
    [ML_JOB_SELECT_PLACEHOLDER_TEXT].

    The resolver is asynchronous glue around two injected services.  A
    promise is embedded as a computation over the state of the outside
    world that settles either fulfilled or rejected; every call that
    reaches a service is appended to a call log, so that statements about
    which service was called, with what, and how often, can be made. *)

From stdpp Require Import base option list strings gmap.

Open Scope string_scope.

(** The character U+0022, which the template literals of the source hold. *)
Definition double_quote : string := String (Ascii.ascii_of_nat 34) "".

(** ** Array.prototype.join

    ECMAScript: [R] starts empty; for every index [k], the separator is
    appended when [k > 0], then the element. *)

Definition join_step (separator : string) (acc : nat * string) (element : string)
    : nat * string :=
  let '(k, R) := acc in
  (S k, (if Nat.eqb k 0 then R else R +:+ separator) +:+ element).

Definition join (separator : string) (elements : list string) : string :=
  snd (fold_left (join_step separator) elements (0, "")).

(** The words of the specification: the elements in order, a separator
    between neighbours. *)
Fixpoint separated_by (separator : string) (elements : list string) : string :=
  match elements with
  | [] => ""
  | [x] => x
  | x :: rest => x +:+ separator +:+ separated_by separator rest
  end.

(** ** The localized constant (src/unnamed/part_000)

    [i18n.translate] belongs to the @kbn/i18n package; the constant takes
    it as a parameter.  Of the options object only [defaultMessage] is
    set. *)

Record TranslateArguments := { defaultMessage : string }.

Definition ML_JOB_SELECT_PLACEHOLDER_TEXT
    (i18n_translate : string -> TranslateArguments -> string) : string :=
  i18n_translate
    "xpack.securitySolution.detectionEngine.createRule.stepDefineRule.mlJobSelectPlaceholderText"
    {| defaultMessage := "Select a job" |}.

(** ** Data model *)

(** The argument object of [dataViewsService.create], with the five
    properties the resolver sets. *)
Record DataViewSpec := {
  spec_id : string;
  spec_name : string;
  spec_title : string;
  spec_timeFieldName : string;
  spec_allowNoIndex : bool;
}.

(** An element of the list returned by [logSourcesService.getLogSources]. *)
Record LogSource := { indexPattern : string }.

(** [logViewAttributes.logIndices] as the object found at run time: the
    discriminant [type] is whatever string the stored object holds.
    [indexName] is read under the tag 'index_name' only and [dataViewId]
    under the tag 'data_view' only. *)
Record LogIndexReference := {
  type : string;
  indexName : string;
  dataViewId : string;
}.

(** [config.messageFields] may be undefined. *)
Record LogViewsStaticConfig := { messageFields : option (list string) }.

(** A service call as the call log records it. *)
Inductive ServiceCall :=
  | DataViewsCreate (spec : DataViewSpec) (skipFetchFields displayErrors : bool)
  | DataViewsGet (id : string)
  | GetLogSources.

Definition is_create (c : ServiceCall) : bool :=
  match c with DataViewsCreate _ _ _ => true | _ => false end.
Definition is_get (c : ServiceCall) : bool :=
  match c with DataViewsGet _ => true | _ => false end.
Definition is_getLogSources (c : ServiceCall) : bool :=
  match c with GetLogSources => true | _ => false end.

(** How often a kind of call occurs in a call log. *)
Definition calls (kind : ServiceCall -> bool) (log : list ServiceCall) : nat :=
  length (List.filter kind log).

(** Values a promise can be rejected with: a value of the outside world,
    [new Error(message)], or [new ResolveLogViewError(message, cause)]. *)
Inductive Thrown (JsValue : Type) :=
  | Reason (v : JsValue)
  | Error (message : string)
  | ResolveLogViewError (message : string) (cause : Thrown JsValue).
Arguments Reason {JsValue} v.
Arguments Error {JsValue} message.
Arguments ResolveLogViewError {JsValue} message cause.

Inductive Settled (JsValue A : Type) :=
  | Fulfilled (value : A)
  | Rejected (error : Thrown JsValue).
Arguments Fulfilled {JsValue A} value.
Arguments Rejected {JsValue A} error.

Definition is_ResolveLogViewError {JsValue} (e : Thrown JsValue) : bool :=
  match e with ResolveLogViewError _ _ => true | _ => false end.

Section Resolver.

(** Types that other modules declare: the values a service may reject
    with, [FieldSpec], [estypes.MappingRuntimeField] and
    [LogViewColumnConfiguration].  [World] is the state of whatever the
    two services talk to. *)
Context {JsValue FieldSpec RuntimeField LogViewColumnConfiguration World : Type}.

(** The conversion to string that a template literal applies to [error]. *)
Variable ToString : Thrown JsValue -> string.

(** [../constants] and [./defaults]. *)
Variables TIMESTAMP_FIELD TIEBREAKER_FIELD : string.
Variable defaultLogViewsStaticConfig_messageFields : list string.

(** The properties of a [DataView] the resolver reads.  The methods
    [getIndexPattern()] and [getRuntimeMappings()] take no argument and
    are read like properties; [timeFieldName] may be undefined. *)
Record DataView := {
  dv_fields : list FieldSpec;
  timeFieldName : option string;
  getIndexPattern : string;
  getRuntimeMappings : gmap string RuntimeField;
}.

Record LogViewAttributes := {
  name : string;
  description : string;
  logIndices : LogIndexReference;
  logColumns : list LogViewColumnConfiguration;
}.

Record ResolvedLogView := {
  r_name : string;
  r_description : string;
  indices : string;
  timestampField : string;
  tiebreakerField : string;
  messageField : list string;
  fields : list FieldSpec;
  runtimeMappings : gmap string RuntimeField;
  columns : list LogViewColumnConfiguration;
  dataViewReference : DataView;
}.

(** *** Promises *)

(** A service method acts on the outside world and settles. *)
Definition External (A : Type) : Type := World -> Settled JsValue A * World.

Record DataViewsContract := {
  create : DataViewSpec -> bool -> bool -> External DataView;
  get : string -> External DataView;
}.

Record LogSourcesService := {
  getLogSources : External (list LogSource);
}.

(** The state a promise runs in: the outside world and the call log. *)
Definition State : Type := World * list ServiceCall.

Definition Promise (A : Type) : Type := State -> Settled JsValue A * State.

Definition fulfil {A} (a : A) : Promise A := fun s => (Fulfilled a, s).

Definition throw {A} (e : Thrown JsValue) : Promise A := fun s => (Rejected e, s).

(** [await p] followed by the rest of an async function body. *)
Definition await {A B} (p : Promise A) (rest : A -> Promise B) : Promise B :=
  fun s =>
    match p s with
    | (Fulfilled a, s') => rest a s'
    | (Rejected e, s') => (Rejected e, s')
    end.

(** [p.catch(onRejected)]. *)
Definition catch {A} (p : Promise A) (onRejected : Thrown JsValue -> Promise A)
    : Promise A :=
  fun s =>
    match p s with
    | (Fulfilled a, s') => (Fulfilled a, s')
    | (Rejected e, s') => onRejected e s'
    end.

(** A call of a service method: the method runs on the world and the
    call is logged. *)
Definition invoke {A} (c : ServiceCall) (method : External A) : Promise A :=
  fun '(w, log) => let '(r, w') := method w in (r, (w', (log ++ [c])%list)).

#[local] Instance promise_ret : MRet Promise := @fulfil.
#[local] Instance promise_bind : MBind Promise := fun A B rest p => await p rest.

Definition dataViewsService_create (dataViewsService : DataViewsContract)
    (spec : DataViewSpec) (skipFetchFields displayErrors : bool) : Promise DataView :=
  invoke (DataViewsCreate spec skipFetchFields displayErrors)
         (create dataViewsService spec skipFetchFields displayErrors).

Definition dataViewsService_get (dataViewsService : DataViewsContract)
    (id : string) : Promise DataView :=
  invoke (DataViewsGet id) (get dataViewsService id).

Definition logSourcesService_getLogSources (logSourcesService : LogSourcesService)
    : Promise (list LogSource) :=
  invoke GetLogSources (getLogSources logSourcesService).

(** *** The resolver *)

(** [a ?? b] *)
Definition nullish {A} (a : option A) (b : A) : A :=
  match a with Some x => x | None => b end.

Definition resolveRuntimeMappings (dataView : DataView) : gmap string RuntimeField :=
  getRuntimeMappings dataView.

Definition resolveLegacyReference (logViewId : string)
    (logViewAttributes : LogViewAttributes) (dataViewsService : DataViewsContract)
    (config : LogViewsStaticConfig) : Promise ResolvedLogView :=
  if negb (type (logIndices logViewAttributes) =? "index_name") then
    throw (Error "This function can only resolve legacy references")
  else
    let indices := indexName (logIndices logViewAttributes) in
    dataViewReference ←
      catch
        (dataViewsService_create dataViewsService
           {| spec_id := "log-view-" +:+ logViewId;
              spec_name := name logViewAttributes;
              spec_title := indices;
              spec_timeFieldName := TIMESTAMP_FIELD;
              spec_allowNoIndex := true |}
           false false)
        (fun error =>
           throw (ResolveLogViewError
                    ("Failed to create Data View reference: " +:+ ToString error)
                    error));
    mret {| indices := indices;
            timestampField := TIMESTAMP_FIELD;
            tiebreakerField := TIEBREAKER_FIELD;
            messageField :=
              nullish (messageFields config) defaultLogViewsStaticConfig_messageFields;
            fields := dv_fields dataViewReference;
            runtimeMappings := ∅;
            columns := logColumns logViewAttributes;
            r_name := name logViewAttributes;
            r_description := description logViewAttributes;
            dataViewReference := dataViewReference |}.

Definition resolveDataViewReference (logViewAttributes : LogViewAttributes)
    (dataViewsService : DataViewsContract) : Promise ResolvedLogView :=
  if negb (type (logIndices logViewAttributes) =? "data_view") then
    throw (Error "This function can only resolve Kibana data view references")
  else
    let dataViewId := dataViewId (logIndices logViewAttributes) in
    dataView ←
      catch
        (dataViewsService_get dataViewsService dataViewId)
        (fun error =>
           throw (ResolveLogViewError
                    ("Failed to fetch data view " +:+ double_quote +:+ dataViewId
                       +:+ double_quote +:+ ": " +:+ ToString error)
                    error));
    mret {| indices := getIndexPattern dataView;
            timestampField := nullish (timeFieldName dataView) TIMESTAMP_FIELD;
            tiebreakerField := TIEBREAKER_FIELD;
            messageField := ["message"];
            fields := dv_fields dataView;
            runtimeMappings := resolveRuntimeMappings dataView;
            columns := logColumns logViewAttributes;
            r_name := name logViewAttributes;
            r_description := description logViewAttributes;
            dataViewReference := dataView |}.

Definition resolveKibanaAdvancedSettingReference (logViewId : string)
    (logViewAttributes : LogViewAttributes) (dataViewsService : DataViewsContract)
    (logSourcesService : LogSourcesService) : Promise ResolvedLogView :=
  if negb (type (logIndices logViewAttributes) =? "kibana_advanced_setting") then
    throw (Error
      "This function can only resolve references to the Log Sources Kibana advanced setting")
  else
    logSources ← logSourcesService_getLogSources logSourcesService;
    let indices := join "," (List.map indexPattern logSources) in
    dataViewReference ←
      catch
        (dataViewsService_create dataViewsService
           {| spec_id := "log-view-" +:+ logViewId;
              spec_name := name logViewAttributes;
              spec_title := indices;
              spec_timeFieldName := TIMESTAMP_FIELD;
              spec_allowNoIndex := true |}
           false false)
        (fun error =>
           throw (ResolveLogViewError
                    ("Failed to create Data View reference: " +:+ ToString error)
                    error));
    mret {| indices := indices;
            timestampField := TIMESTAMP_FIELD;
            tiebreakerField := TIEBREAKER_FIELD;
            messageField := ["message"];
            fields := dv_fields dataViewReference;
            runtimeMappings := ∅;
            columns := logColumns logViewAttributes;
            r_name := name logViewAttributes;
            r_description := description logViewAttributes;
            dataViewReference := dataViewReference |}.

Definition resolveLogView (logViewId : string) (logViewAttributes : LogViewAttributes)
    (dataViewsService : DataViewsContract) (logSourcesService : LogSourcesService)
    (config : LogViewsStaticConfig) : Promise ResolvedLogView :=
  if type (logIndices logViewAttributes) =? "index_name" then
    resolveLegacyReference logViewId logViewAttributes dataViewsService config
  else if type (logIndices logViewAttributes) =? "data_view" then
    resolveDataViewReference logViewAttributes dataViewsService
  else
    resolveKibanaAdvancedSettingReference logViewId logViewAttributes
      dataViewsService logSourcesService.

End Resolver.

(** ** Vocabulary of the statements *)

(** The three reference kinds. *)
Inductive Branch := LegacyReference | DataViewReference | KibanaAdvancedSettingReference.

(** The branch the specification assigns to a value of [logIndices.type]. *)
Definition branch_of_type (t : string) : Branch :=
  if decide (t = "index_name") then LegacyReference
  else if decide (t = "data_view") then DataViewReference
  else KibanaAdvancedSettingReference.

(** The branch function of the source that stands for a reference kind,
    applied to the arguments [resolveLogView] hands to it. *)
Definition run_branch {JsValue FieldSpec RuntimeField LogViewColumnConfiguration World : Type}
    (ToString : Thrown JsValue -> string) (TIMESTAMP_FIELD TIEBREAKER_FIELD : string)
    (defaultLogViewsStaticConfig_messageFields : list string)
    (b : Branch) (logViewId : string)
    (logViewAttributes : @LogViewAttributes LogViewColumnConfiguration)
    (dataViewsService : @DataViewsContract JsValue FieldSpec RuntimeField World)
    (logSourcesService : @LogSourcesService JsValue World)
    (config : LogViewsStaticConfig)
    : Promise (@ResolvedLogView FieldSpec RuntimeField LogViewColumnConfiguration) :=
  match b with
  | LegacyReference =>
      resolveLegacyReference ToString TIMESTAMP_FIELD TIEBREAKER_FIELD
        defaultLogViewsStaticConfig_messageFields
        logViewId logViewAttributes dataViewsService config
  | DataViewReference =>
      resolveDataViewReference ToString TIMESTAMP_FIELD TIEBREAKER_FIELD
        logViewAttributes dataViewsService
  | KibanaAdvancedSettingReference =>
      resolveKibanaAdvancedSettingReference ToString TIMESTAMP_FIELD TIEBREAKER_FIELD
        logViewId logViewAttributes dataViewsService logSourcesService
  end.

(** The specification object both creating branches hand to
    [dataViewsService.create], for a given title. *)
Definition created_spec (TIMESTAMP_FIELD logViewId name title : string) : DataViewSpec :=
  {| spec_id := "log-view-" +:+ logViewId;
     spec_name := name;
     spec_title := title;
     spec_timeFieldName := TIMESTAMP_FIELD;
     spec_allowNoIndex := true |}.

(** ** Sample inputs

    A small concrete world: rejection reasons, field specifications,
    runtime fields and column configurations are strings, and the state
    of the outside world is the number of requests served so far. *)

Module Sample.

Definition render (e : Thrown string) : string :=
  match e with
  | Reason v => v
  | Error m => "Error: " +:+ m
  | ResolveLogViewError m _ => "ResolveLogViewError: " +:+ m
  end.

Definition attributes (t : string) : @LogViewAttributes string :=
  {| name := "Production logs";
     description := "All production log indices";
     logIndices := {| type := t; indexName := "logs-*,filebeat-*"; dataViewId := "dv-1" |};
     logColumns := ["timestamp"; "message"] |}.

Definition storedView : @DataView string string :=
  {| dv_fields := ["host.name"; "event.time"];
     timeFieldName := Some "event.time";
     getIndexPattern := "metrics-*";
     getRuntimeMappings := {[ "day_of_week" := "keyword" ]} |}.

Definition untimedView : @DataView string string :=
  {| dv_fields := [];
     timeFieldName := None;
     getIndexPattern := "traces-*";
     getRuntimeMappings := ∅ |}.

(** A data views service that answers: [create] builds a view from the
    specification, [get] knows two identifiers. *)
Definition dataViews : @DataViewsContract string string string nat :=
  {| create := fun spec _ _ served =>
       (Fulfilled {| dv_fields := ["message"];
                     timeFieldName := Some (spec_timeFieldName spec);
                     getIndexPattern := spec_title spec;
                     getRuntimeMappings := ∅ |},
        S served);
     get := fun id served =>
       if id =? "dv-1" then (Fulfilled storedView, S served)
       else if id =? "dv-2" then (Fulfilled untimedView, S served)
       else (Rejected (Reason "saved object not found"), S served) |}.

(** A data views service that is down. *)
Definition dataViewsDown : @DataViewsContract string string string nat :=
  {| create := fun _ _ _ served => (Rejected (Reason "503 Service Unavailable"), S served);
     get := fun _ served => (Rejected (Reason "503 Service Unavailable"), S served) |}.

Definition logSources : @LogSourcesService string nat :=
  {| getLogSources := fun served =>
       (Fulfilled [ {| indexPattern := "logs-*-*" |};
                    {| indexPattern := "logs-*" |};
                    {| indexPattern := "filebeat-*" |} ],
        S served) |}.

(** A log sources service whose setting lists no source. *)
Definition noLogSources : @LogSourcesService string nat :=
  {| getLogSources := fun served => (Fulfilled [], S served) |}.

Definition logSourcesDown : @LogSourcesService string nat :=
  {| getLogSources := fun served => (Rejected (Reason "uiSettings unavailable"), S served) |}.

Definition config : LogViewsStaticConfig := {| messageFields := Some ["log.original"] |}.

(** A translation function over the message catalogue of a locale: the
    catalogue entry of the identifier, or else the default message. *)
Definition translate (messages : gmap string string)
    (id : string) (args : TranslateArguments) : string :=
  default (defaultMessage args) (messages !! id).

Definition noConfig : LogViewsStaticConfig := {| messageFields := None |}.

End Sample.

(** * Properties *)

(** ** Joining strings *)

Lemma string_app_nil_r (s : string) : s +:+ "" = s.
Proof.
  induction s as [|a s IH]; [reflexivity|].
  change (String a (s +:+ "") = String a s). now rewrite IH.
Qed.

Lemma string_app_assoc (s t u : string) : (s +:+ t) +:+ u = s +:+ (t +:+ u).
Proof.
  induction s as [|a s IH]; [reflexivity|].
  change (String a ((s +:+ t) +:+ u) = String a (s +:+ (t +:+ u))). now rewrite IH.
Qed.

(** Once the first element is in, every further element brings its
    separator along. *)
Lemma join_fold_started (separator : string) (elements : list string) (k : nat) (R : string) :
  snd (fold_left (join_step separator) elements (S k, R))
  = match elements with
    | [] => R
    | _ => R +:+ separator +:+ separated_by separator elements
    end.
Proof.
  revert k R. induction elements as [|e rest IH]; intros k R; [reflexivity|].
  change (snd (fold_left (join_step separator) rest (S (S k), (R +:+ separator) +:+ e))
          = R +:+ separator +:+ separated_by separator (e :: rest)).
  rewrite IH. destruct rest as [|e' rest'].
  - apply string_app_assoc.
  - change (separated_by separator (e :: e' :: rest'))
      with (e +:+ separator +:+ separated_by separator (e' :: rest')).
    now rewrite !string_app_assoc.
Qed.

(** [join] is the separated sequence of the specification. *)
Lemma join_separated_by (separator : string) (elements : list string) :
  join separator elements = separated_by separator elements.
Proof.
  destruct elements as [|e rest]; [reflexivity|].
  unfold join.
  change (snd (fold_left (join_step separator) rest (1, e))
          = separated_by separator (e :: rest)).
  rewrite join_fold_started. now destruct rest.
Qed.

(** X3: [join] yields the empty string for no element, the element
    itself for a single one, and otherwise the first element, the
    separator and the join of the rest: the elements in order with the
    separator between neighbours. *)
Theorem join_in_order (separator x y : string) (rest : list string) :
  join separator [] = ""
  /\ join separator [x] = x
  /\ join separator (x :: y :: rest) = x +:+ separator +:+ join separator (y :: rest).
Proof.
  repeat split. now rewrite !join_separated_by.
Qed.

(** Joining two non-empty lists puts one separator between the joins. *)
Lemma join_app (separator : string) (front back : list string) :
  front ≠ [] -> back ≠ [] ->
  join separator (front ++ back)%list
  = join separator front +:+ separator +:+ join separator back.
Proof.
  intros Hfront Hback. rewrite !join_separated_by.
  induction front as [|x front IH]; [contradiction|].
  destruct front as [|y front].
  - destruct back as [|z back]; [contradiction|reflexivity].
  - change (x +:+ separator +:+ separated_by separator ((y :: front) ++ back)%list
            = (x +:+ separator +:+ separated_by separator (y :: front))
                +:+ separator +:+ separated_by separator back).
    rewrite IH by discriminate. now rewrite !string_app_assoc.
Qed.

Example join_three : join "," ["logs-*-*"; "logs-*"; "filebeat-*"] = "logs-*-*,logs-*,filebeat-*".
Proof. reflexivity. Qed.

Example join_one : join "," ["logs-*"] = "logs-*".
Proof. reflexivity. Qed.

Example join_none : join "," [] = "".
Proof. reflexivity. Qed.

(** ** Call logs *)

Lemma log_grows_ne {A} (log : list A) (c : A) : (log ++ [c])%list ≠ log.
Proof.
  intros H. apply (f_equal length) in H. rewrite length_app in H. simpl in H. lia.
Qed.

(** ** What one run of each branch does *)

Section Properties.

Context {JsValue FieldSpec RuntimeField LogViewColumnConfiguration World : Type}.
Variable ToString : Thrown JsValue -> string.
Variables TIMESTAMP_FIELD TIEBREAKER_FIELD : string.
Variable defaultLogViewsStaticConfig_messageFields : list string.

Implicit Types (logViewId : string)
  (logViewAttributes : @LogViewAttributes LogViewColumnConfiguration)
  (dataViewsService : @DataViewsContract JsValue FieldSpec RuntimeField World)
  (logSourcesService : @LogSourcesService JsValue World)
  (config : LogViewsStaticConfig)
  (w : World) (log : list ServiceCall)
  (result : @ResolvedLogView FieldSpec RuntimeField LogViewColumnConfiguration).

Ltac step_promise :=
  unfold mbind, promise_bind, mret, promise_ret, await, catch, fulfil, throw,
    dataViewsService_create, dataViewsService_get, logSourcesService_getLogSources,
    invoke.

Lemma resolveLegacyReference_guard logViewId logViewAttributes dataViewsService config w log :
  type (logIndices logViewAttributes) ≠ "index_name" ->
  resolveLegacyReference ToString TIMESTAMP_FIELD TIEBREAKER_FIELD
    defaultLogViewsStaticConfig_messageFields
    logViewId logViewAttributes dataViewsService config (w, log)
  = (Rejected (Error "This function can only resolve legacy references"), (w, log)).
Proof.
  intros Hne. unfold resolveLegacyReference.
  apply String.eqb_neq in Hne. now rewrite Hne.
Qed.

Lemma resolveDataViewReference_guard logViewAttributes dataViewsService w log :
  type (logIndices logViewAttributes) ≠ "data_view" ->
  resolveDataViewReference ToString TIMESTAMP_FIELD TIEBREAKER_FIELD
    logViewAttributes dataViewsService (w, log)
  = (Rejected (Error "This function can only resolve Kibana data view references"),
     (w, log)).
Proof.
  intros Hne. unfold resolveDataViewReference.
  apply String.eqb_neq in Hne. now rewrite Hne.
Qed.

Lemma resolveKibanaAdvancedSettingReference_guard
    logViewId logViewAttributes dataViewsService logSourcesService w log :
  type (logIndices logViewAttributes) ≠ "kibana_advanced_setting" ->
  resolveKibanaAdvancedSettingReference ToString TIMESTAMP_FIELD TIEBREAKER_FIELD
    logViewId logViewAttributes dataViewsService logSourcesService (w, log)
  = (Rejected (Error
       "This function can only resolve references to the Log Sources Kibana advanced setting"),
     (w, log)).
Proof.
  intros Hne. unfold resolveKibanaAdvancedSettingReference.
  apply String.eqb_neq in Hne. now rewrite Hne.
Qed.

Lemma resolveLegacyReference_run logViewId logViewAttributes dataViewsService config w log :
  type (logIndices logViewAttributes) = "index_name" ->
  let spec := created_spec TIMESTAMP_FIELD logViewId (name logViewAttributes)
                (indexName (logIndices logViewAttributes)) in
  resolveLegacyReference ToString TIMESTAMP_FIELD TIEBREAKER_FIELD
    defaultLogViewsStaticConfig_messageFields
    logViewId logViewAttributes dataViewsService config (w, log)
  = match create dataViewsService spec false false w with
    | (Fulfilled dataView, w') =>
        (Fulfilled
           {| indices := indexName (logIndices logViewAttributes);
              timestampField := TIMESTAMP_FIELD;
              tiebreakerField := TIEBREAKER_FIELD;
              messageField :=
                nullish (messageFields config) defaultLogViewsStaticConfig_messageFields;
              fields := dv_fields dataView;
              runtimeMappings := ∅;
              columns := logColumns logViewAttributes;
              r_name := name logViewAttributes;
              r_description := description logViewAttributes;
              dataViewReference := dataView |},
         (w', (log ++ [DataViewsCreate spec false false])%list))
    | (Rejected e, w') =>
        (Rejected (ResolveLogViewError
                     ("Failed to create Data View reference: " +:+ ToString e) e),
         (w', (log ++ [DataViewsCreate spec false false])%list))
    end.
Proof.
  intros Htype spec. unfold resolveLegacyReference. rewrite Htype.
  change (negb ("index_name" =? "index_name")) with false. cbv iota.
  step_promise. fold (created_spec TIMESTAMP_FIELD logViewId (name logViewAttributes)
                        (indexName (logIndices logViewAttributes))). fold spec.
  now destruct (create dataViewsService spec false false w) as [[dataView|e] w'].
Qed.

Lemma resolveDataViewReference_run logViewAttributes dataViewsService w log :
  type (logIndices logViewAttributes) = "data_view" ->
  let id := dataViewId (logIndices logViewAttributes) in
  resolveDataViewReference ToString TIMESTAMP_FIELD TIEBREAKER_FIELD
    logViewAttributes dataViewsService (w, log)
  = match get dataViewsService id w with
    | (Fulfilled dataView, w') =>
        (Fulfilled
           {| indices := getIndexPattern dataView;
              timestampField := nullish (timeFieldName dataView) TIMESTAMP_FIELD;
              tiebreakerField := TIEBREAKER_FIELD;
              messageField := ["message"];
              fields := dv_fields dataView;
              runtimeMappings := getRuntimeMappings dataView;
              columns := logColumns logViewAttributes;
              r_name := name logViewAttributes;
              r_description := description logViewAttributes;
              dataViewReference := dataView |},
         (w', (log ++ [DataViewsGet id])%list))
    | (Rejected e, w') =>
        (Rejected (ResolveLogViewError
                     ("Failed to fetch data view " +:+ double_quote +:+ id
                        +:+ double_quote +:+ ": " +:+ ToString e) e),
         (w', (log ++ [DataViewsGet id])%list))
    end.
Proof.
  intros Htype id. unfold resolveDataViewReference. rewrite Htype.
  change (negb ("data_view" =? "data_view")) with false. cbv iota.
  step_promise. fold id.
  now destruct (get dataViewsService id w) as [[dataView|e] w'].
Qed.

Lemma resolveKibanaAdvancedSettingReference_run
    logViewId logViewAttributes dataViewsService logSourcesService w log :
  type (logIndices logViewAttributes) = "kibana_advanced_setting" ->
  resolveKibanaAdvancedSettingReference ToString TIMESTAMP_FIELD TIEBREAKER_FIELD
    logViewId logViewAttributes dataViewsService logSourcesService (w, log)
  = match getLogSources logSourcesService w with
    | (Rejected e, w1) => (Rejected e, (w1, (log ++ [GetLogSources])%list))
    | (Fulfilled logSources, w1) =>
        let spec := created_spec TIMESTAMP_FIELD logViewId (name logViewAttributes)
                      (join "," (List.map indexPattern logSources)) in
        match create dataViewsService spec false false w1 with
        | (Fulfilled dataView, w2) =>
            (Fulfilled
               {| indices := join "," (List.map indexPattern logSources);
                  timestampField := TIMESTAMP_FIELD;
                  tiebreakerField := TIEBREAKER_FIELD;
                  messageField := ["message"];
                  fields := dv_fields dataView;
                  runtimeMappings := ∅;
                  columns := logColumns logViewAttributes;
                  r_name := name logViewAttributes;
                  r_description := description logViewAttributes;
                  dataViewReference := dataView |},
             (w2, (log ++ [GetLogSources; DataViewsCreate spec false false])%list))
        | (Rejected e, w2) =>
            (Rejected (ResolveLogViewError
                         ("Failed to create Data View reference: " +:+ ToString e) e),
             (w2, (log ++ [GetLogSources; DataViewsCreate spec false false])%list))
        end
    end.
Proof.
  intros Htype. unfold resolveKibanaAdvancedSettingReference. rewrite Htype.
  change (negb ("kibana_advanced_setting" =? "kibana_advanced_setting")) with false.
  cbv iota. step_promise.
  destruct (getLogSources logSourcesService w) as [[logSources|e] w1]; [|reflexivity].
  cbv zeta.
  fold (created_spec TIMESTAMP_FIELD logViewId (name logViewAttributes)
          (join "," (List.map indexPattern logSources))).
  destruct (create dataViewsService _ false false w1) as [[dataView|e] w2];
    now rewrite <- app_assoc.
Qed.

(** The dispatch of [resolveLogView], case by case. *)

Lemma resolveLogView_index_name
    logViewId logViewAttributes dataViewsService logSourcesService config :
  type (logIndices logViewAttributes) = "index_name" ->
  resolveLogView ToString TIMESTAMP_FIELD TIEBREAKER_FIELD
    defaultLogViewsStaticConfig_messageFields
    logViewId logViewAttributes dataViewsService logSourcesService config
  = resolveLegacyReference ToString TIMESTAMP_FIELD TIEBREAKER_FIELD
      defaultLogViewsStaticConfig_messageFields
      logViewId logViewAttributes dataViewsService config.
Proof. intros Htype. unfold resolveLogView. now rewrite Htype. Qed.

Lemma resolveLogView_data_view
    logViewId logViewAttributes dataViewsService logSourcesService config :
  type (logIndices logViewAttributes) = "data_view" ->
  resolveLogView ToString TIMESTAMP_FIELD TIEBREAKER_FIELD
    defaultLogViewsStaticConfig_messageFields
    logViewId logViewAttributes dataViewsService logSourcesService config
  = resolveDataViewReference ToString TIMESTAMP_FIELD TIEBREAKER_FIELD
      logViewAttributes dataViewsService.
Proof. intros Htype. unfold resolveLogView. now rewrite Htype. Qed.

Lemma resolveLogView_otherwise
    logViewId logViewAttributes dataViewsService logSourcesService config :
  type (logIndices logViewAttributes) ≠ "index_name" ->
  type (logIndices logViewAttributes) ≠ "data_view" ->
  resolveLogView ToString TIMESTAMP_FIELD TIEBREAKER_FIELD
    defaultLogViewsStaticConfig_messageFields
    logViewId logViewAttributes dataViewsService logSourcesService config
  = resolveKibanaAdvancedSettingReference ToString TIMESTAMP_FIELD TIEBREAKER_FIELD
      logViewId logViewAttributes dataViewsService logSourcesService.
Proof.
  intros Hlegacy Hview. unfold resolveLogView.
  apply String.eqb_neq in Hlegacy, Hview. now rewrite Hlegacy, Hview.
Qed.

(** ** The dispatch *)

(** A branch entered under a tag that is not its own stops at its guard;
    the branch that owns the tag gets past it.  The two outcomes never
    coincide. *)
Ltac outcomes_differ H :=
  repeat (cbv zeta in H;
          match type of H with
          | context [match ?x with _ => _ end] => destruct x
          end);
  first [ discriminate H
        | injection H; intros;
          match goal with
          | Hlog : ?l = (?l ++ _)%list |- _ =>
              symmetry in Hlog; exact (log_grows_ne _ _ Hlog)
          end ].

(** C1: [resolveLogView] dispatches three ways on [logIndices.type]: on
    'index_name' it is the legacy-reference branch, on 'data_view' the
    data-view-reference branch, on anything else the Kibana advanced
    setting branch; from every state the invocation coincides with the
    run of exactly one of the three branches, the one the tag selects. *)
Theorem resolveLogView_three_way_dispatch
    logViewId logViewAttributes dataViewsService logSourcesService config :
  let t := type (logIndices logViewAttributes) in
  let resolved :=
    resolveLogView ToString TIMESTAMP_FIELD TIEBREAKER_FIELD
      defaultLogViewsStaticConfig_messageFields
      logViewId logViewAttributes dataViewsService logSourcesService config in
  (t = "index_name" ->
     resolved = resolveLegacyReference ToString TIMESTAMP_FIELD TIEBREAKER_FIELD
                  defaultLogViewsStaticConfig_messageFields
                  logViewId logViewAttributes dataViewsService config)
  /\ (t = "data_view" ->
        resolved = resolveDataViewReference ToString TIMESTAMP_FIELD TIEBREAKER_FIELD
                     logViewAttributes dataViewsService)
  /\ (t ≠ "index_name" -> t ≠ "data_view" ->
        resolved = resolveKibanaAdvancedSettingReference ToString TIMESTAMP_FIELD
                     TIEBREAKER_FIELD logViewId logViewAttributes dataViewsService
                     logSourcesService)
  /\ forall w log (b : Branch),
       run_branch ToString TIMESTAMP_FIELD TIEBREAKER_FIELD
         defaultLogViewsStaticConfig_messageFields b
         logViewId logViewAttributes dataViewsService logSourcesService config (w, log)
       = resolved (w, log)
       <-> b = branch_of_type t.
Proof.
  intros t resolved. subst resolved.
  split; [apply resolveLogView_index_name|].
  split; [apply resolveLogView_data_view|].
  split; [apply resolveLogView_otherwise|].
  intros w log b. unfold branch_of_type.
  destruct (decide (t = "index_name")) as [Hlegacy|Hlegacy].
  - rewrite resolveLogView_index_name by exact Hlegacy.
    split; [|now intros ->].
    destruct b; [reflexivity| |]; intros H; exfalso; simpl in H;
      rewrite resolveLegacyReference_run in H by exact Hlegacy.
    + rewrite resolveDataViewReference_guard in H
        by (fold t; rewrite Hlegacy; discriminate).
      outcomes_differ H.
    + rewrite resolveKibanaAdvancedSettingReference_guard in H
        by (fold t; rewrite Hlegacy; discriminate).
      outcomes_differ H.
  - destruct (decide (t = "data_view")) as [Hview|Hview].
    + rewrite resolveLogView_data_view by exact Hview.
      split; [|now intros ->].
      destruct b; [|reflexivity|]; intros H; exfalso; simpl in H;
        rewrite resolveDataViewReference_run in H by exact Hview.
      * rewrite resolveLegacyReference_guard in H by exact Hlegacy.
        outcomes_differ H.
      * rewrite resolveKibanaAdvancedSettingReference_guard in H
          by (fold t; rewrite Hview; discriminate).
        outcomes_differ H.
    + rewrite resolveLogView_otherwise by assumption.
      split; [|now intros ->].
      destruct b; [| |reflexivity]; intros H; exfalso; simpl in H.
      * rewrite resolveLegacyReference_guard in H by exact Hlegacy.
        destruct (decide (t = "kibana_advanced_setting")) as [Hsetting|Hsetting].
        -- rewrite resolveKibanaAdvancedSettingReference_run in H by exact Hsetting.
           outcomes_differ H.
        -- rewrite resolveKibanaAdvancedSettingReference_guard in H by exact Hsetting.
           discriminate H.
      * rewrite resolveDataViewReference_guard in H by exact Hview.
        destruct (decide (t = "kibana_advanced_setting")) as [Hsetting|Hsetting].
        -- rewrite resolveKibanaAdvancedSettingReference_run in H by exact Hsetting.
           outcomes_differ H.
        -- rewrite resolveKibanaAdvancedSettingReference_guard in H by exact Hsetting.
           discriminate H.
Qed.

(** C4: when [logIndices.type] is none of 'index_name', 'data_view' and
    'kibana_advanced_setting', [resolveLogView] is rejected with a plain
    [Error], which is not a [ResolveLogViewError], and neither the outside
    world nor the call log has changed: no service was called. *)
Theorem resolveLogView_unknown_type_generic_error
    logViewId logViewAttributes dataViewsService logSourcesService config w log :
  type (logIndices logViewAttributes) ≠ "index_name" ->
  type (logIndices logViewAttributes) ≠ "data_view" ->
  type (logIndices logViewAttributes) ≠ "kibana_advanced_setting" ->
  exists e : Thrown JsValue,
    resolveLogView ToString TIMESTAMP_FIELD TIEBREAKER_FIELD
      defaultLogViewsStaticConfig_messageFields
      logViewId logViewAttributes dataViewsService logSourcesService config (w, log)
    = (Rejected e, (w, log))
    /\ e = Error
             "This function can only resolve references to the Log Sources Kibana advanced setting"
    /\ is_ResolveLogViewError e = false.
Proof.
  intros Hlegacy Hview Hsetting.
  eexists. split; [|split; reflexivity].
  rewrite resolveLogView_otherwise by assumption.
  now apply resolveKibanaAdvancedSettingReference_guard.
Qed.

(** ** Successful resolutions

    A fulfilled [resolveLogView] went through the one branch its tag
    selects, every service call of that branch was fulfilled, and the
    result is the object that branch builds. *)
Lemma resolveLogView_fulfilled_inv
    logViewId logViewAttributes dataViewsService logSourcesService config w log result s' :
  resolveLogView ToString TIMESTAMP_FIELD TIEBREAKER_FIELD
    defaultLogViewsStaticConfig_messageFields
    logViewId logViewAttributes dataViewsService logSourcesService config (w, log)
  = (Fulfilled result, s') ->
  (type (logIndices logViewAttributes) = "index_name"
   /\ exists dataView w',
        create dataViewsService
          (created_spec TIMESTAMP_FIELD logViewId (name logViewAttributes)
             (indexName (logIndices logViewAttributes))) false false w
        = (Fulfilled dataView, w')
        /\ result
           = {| indices := indexName (logIndices logViewAttributes);
                timestampField := TIMESTAMP_FIELD;
                tiebreakerField := TIEBREAKER_FIELD;
                messageField :=
                  nullish (messageFields config) defaultLogViewsStaticConfig_messageFields;
                fields := dv_fields dataView;
                runtimeMappings := ∅;
                columns := logColumns logViewAttributes;
                r_name := name logViewAttributes;
                r_description := description logViewAttributes;
                dataViewReference := dataView |})
  \/ (type (logIndices logViewAttributes) = "data_view"
      /\ exists dataView w',
           get dataViewsService (dataViewId (logIndices logViewAttributes)) w
           = (Fulfilled dataView, w')
           /\ result
              = {| indices := getIndexPattern dataView;
                   timestampField := nullish (timeFieldName dataView) TIMESTAMP_FIELD;
                   tiebreakerField := TIEBREAKER_FIELD;
                   messageField := ["message"];
                   fields := dv_fields dataView;
                   runtimeMappings := getRuntimeMappings dataView;
                   columns := logColumns logViewAttributes;
                   r_name := name logViewAttributes;
                   r_description := description logViewAttributes;
                   dataViewReference := dataView |})
  \/ (type (logIndices logViewAttributes) = "kibana_advanced_setting"
      /\ exists logSources w1 dataView w2,
           getLogSources logSourcesService w = (Fulfilled logSources, w1)
           /\ create dataViewsService
                (created_spec TIMESTAMP_FIELD logViewId (name logViewAttributes)
                   (join "," (List.map indexPattern logSources))) false false w1
              = (Fulfilled dataView, w2)
           /\ result
              = {| indices := join "," (List.map indexPattern logSources);
                   timestampField := TIMESTAMP_FIELD;
                   tiebreakerField := TIEBREAKER_FIELD;
                   messageField := ["message"];
                   fields := dv_fields dataView;
                   runtimeMappings := ∅;
                   columns := logColumns logViewAttributes;
                   r_name := name logViewAttributes;
                   r_description := description logViewAttributes;
                   dataViewReference := dataView |}).
Proof.
  intros Hrun.
  destruct (decide (type (logIndices logViewAttributes) = "index_name")) as [Hlegacy|Hlegacy].
  { left. split; [exact Hlegacy|].
    rewrite resolveLogView_index_name, resolveLegacyReference_run in Hrun by exact Hlegacy.
    cbv zeta in Hrun.
    destruct (create dataViewsService _ false false w) as [[dataView|e] w'] eqn:Hcreate;
      [|discriminate Hrun].
    exists dataView, w'. split; [reflexivity|]. now injection Hrun as <- _. }
  destruct (decide (type (logIndices logViewAttributes) = "data_view")) as [Hview|Hview].
  { right; left. split; [exact Hview|].
    rewrite resolveLogView_data_view, resolveDataViewReference_run in Hrun by exact Hview.
    cbv zeta in Hrun.
    destruct (get dataViewsService _ w) as [[dataView|e] w'] eqn:Hget;
      [|discriminate Hrun].
    exists dataView, w'. split; [reflexivity|]. now injection Hrun as <- _. }
  rewrite resolveLogView_otherwise in Hrun by assumption.
  destruct (decide (type (logIndices logViewAttributes) = "kibana_advanced_setting"))
    as [Hsetting|Hsetting].
  - right; right. split; [exact Hsetting|].
    rewrite resolveKibanaAdvancedSettingReference_run in Hrun by exact Hsetting.
    destruct (getLogSources logSourcesService w) as [[logSources|e] w1] eqn:Hsources;
      [|discriminate Hrun].
    cbv zeta in Hrun.
    destruct (create dataViewsService _ false false w1) as [[dataView|e] w2] eqn:Hcreate;
      [|discriminate Hrun].
    exists logSources, w1, dataView, w2. repeat split; [exact Hcreate|].
    now injection Hrun as <- _.
  - rewrite resolveKibanaAdvancedSettingReference_guard in Hrun by exact Hsetting.
    discriminate Hrun.
Qed.

(** C3: under the tag 'data_view', when [dataViewsService.get] fulfils
    the request for the configured [dataViewId], the resolution is
    fulfilled after that single call, with [indices] the index pattern of
    the fetched data view, [timestampField] its [timeFieldName] when
    defined and [TIMESTAMP_FIELD] otherwise, [runtimeMappings] its runtime
    mappings, [messageField] the list holding 'message', and
    [dataViewReference] the fetched data view. *)
Theorem resolveLogView_data_view_result
    logViewId logViewAttributes dataViewsService logSourcesService config w log
    (dataView : @DataView FieldSpec RuntimeField) w' :
  type (logIndices logViewAttributes) = "data_view" ->
  get dataViewsService (dataViewId (logIndices logViewAttributes)) w
  = (Fulfilled dataView, w') ->
  exists result,
    resolveLogView ToString TIMESTAMP_FIELD TIEBREAKER_FIELD
      defaultLogViewsStaticConfig_messageFields
      logViewId logViewAttributes dataViewsService logSourcesService config (w, log)
    = (Fulfilled result,
       (w', (log ++ [DataViewsGet (dataViewId (logIndices logViewAttributes))])%list))
    /\ indices result = getIndexPattern dataView
    /\ timestampField result
       = match timeFieldName dataView with
         | Some field => field
         | None => TIMESTAMP_FIELD
         end
    /\ runtimeMappings result = getRuntimeMappings dataView
    /\ messageField result = ["message"]
    /\ dataViewReference result = dataView.
Proof.
  intros Hview Hget.
  rewrite resolveLogView_data_view, resolveDataViewReference_run by exact Hview.
  cbv zeta. rewrite Hget. eexists. split; [reflexivity|]. now simpl.
Qed.

(** C5: under the tag 'kibana_advanced_setting', when
    [logSourcesService.getLogSources] is fulfilled, the index patterns of
    the log sources, in order and separated by commas, are the title of
    the specification handed to [dataViewsService.create], which is the
    call that follows; whenever the resolution is fulfilled that same
    string is its [indices], and it is fulfilled whenever the creation
    is. *)
Theorem resolveLogView_advanced_setting_indices
    logViewId logViewAttributes dataViewsService logSourcesService config w log
    (logSources : list LogSource) w1 :
  type (logIndices logViewAttributes) = "kibana_advanced_setting" ->
  getLogSources logSourcesService w = (Fulfilled logSources, w1) ->
  let joined := separated_by "," (List.map indexPattern logSources) in
  let run :=
    resolveLogView ToString TIMESTAMP_FIELD TIEBREAKER_FIELD
      defaultLogViewsStaticConfig_messageFields
      logViewId logViewAttributes dataViewsService logSourcesService config (w, log) in
  exists spec,
    spec_title spec = joined
    /\ snd (snd run) = (log ++ [GetLogSources; DataViewsCreate spec false false])%list
    /\ (forall result, fst run = Fulfilled result -> indices result = joined)
    /\ (forall dataView w2,
          create dataViewsService spec false false w1 = (Fulfilled dataView, w2) ->
          exists result, fst run = Fulfilled result /\ dataViewReference result = dataView).
Proof.
  intros Hsetting Hsources joined run. subst run joined.
  rewrite resolveLogView_otherwise by (rewrite Hsetting; discriminate).
  rewrite resolveKibanaAdvancedSettingReference_run by exact Hsetting.
  rewrite Hsources. cbv zeta. rewrite <- join_separated_by.
  exists (created_spec TIMESTAMP_FIELD logViewId (name logViewAttributes)
            (join "," (List.map indexPattern logSources))).
  split; [reflexivity|].
  destruct (create dataViewsService _ false false w1) as [[dataView|e] w2] eqn:Hcreate;
    simpl.
  - repeat split.
    + now intros result [= <-].
    + intros dataView' w2' [= <- _]. now eexists.
  - repeat split; intros; discriminate.
Qed.

(** C6: in a fulfilled resolution under the tag 'index_name',
    [messageField] is [config.messageFields] when that is defined and the
    [messageFields] of [defaultLogViewsStaticConfig] otherwise; in a
    fulfilled resolution under any other tag it is the list holding
    'message', whatever the configuration. *)
Theorem resolveLogView_messageField
    logViewId logViewAttributes dataViewsService logSourcesService config w log result s' :
  resolveLogView ToString TIMESTAMP_FIELD TIEBREAKER_FIELD
    defaultLogViewsStaticConfig_messageFields
    logViewId logViewAttributes dataViewsService logSourcesService config (w, log)
  = (Fulfilled result, s') ->
  (type (logIndices logViewAttributes) = "index_name" ->
     messageField result
     = match messageFields config with
       | Some configured => configured
       | None => defaultLogViewsStaticConfig_messageFields
       end)
  /\ (type (logIndices logViewAttributes) ≠ "index_name" ->
        messageField result = ["message"]).
Proof.
  intros Hrun.
  destruct (resolveLogView_fulfilled_inv _ _ _ _ _ _ _ _ _ Hrun)
    as [[Htype (dataView & w' & _ & ->)]
       |[[Htype (dataView & w' & _ & ->)]
        |[Htype (logSources & w1 & dataView & w2 & _ & _ & ->)]]];
    split; intros Hcase; try reflexivity; congruence.
Qed.

(** C8: every fulfilled resolution, whatever the tag, has
    [TIEBREAKER_FIELD] as [tiebreakerField] and carries the [name], the
    [description] and the [logColumns] of the log view attributes
    unchanged as [name], [description] and [columns]. *)
Theorem resolveLogView_common_fields
    logViewId logViewAttributes dataViewsService logSourcesService config w log result s' :
  resolveLogView ToString TIMESTAMP_FIELD TIEBREAKER_FIELD
    defaultLogViewsStaticConfig_messageFields
    logViewId logViewAttributes dataViewsService logSourcesService config (w, log)
  = (Fulfilled result, s') ->
  tiebreakerField result = TIEBREAKER_FIELD
  /\ r_name result = name logViewAttributes
  /\ r_description result = description logViewAttributes
  /\ columns result = logColumns logViewAttributes.
Proof.
  intros Hrun.
  destruct (resolveLogView_fulfilled_inv _ _ _ _ _ _ _ _ _ Hrun)
    as [(_ & dataView & w' & _ & Hresult)
       |[(_ & dataView & w' & _ & Hresult)
        |(_ & logSources & w1 & dataView & w2 & _ & _ & Hresult)]];
    rewrite Hresult; repeat split.
Qed.

(** C9: a fulfilled resolution under the tag 'index_name' or
    'kibana_advanced_setting' has the empty object as [runtimeMappings]
    and [TIMESTAMP_FIELD] as [timestampField]; so a result with a runtime
    mapping, or with another timestamp field, comes from the tag
    'data_view'. *)
Theorem resolveLogView_runtimeMappings_timestampField
    logViewId logViewAttributes dataViewsService logSourcesService config w log result s' :
  resolveLogView ToString TIMESTAMP_FIELD TIEBREAKER_FIELD
    defaultLogViewsStaticConfig_messageFields
    logViewId logViewAttributes dataViewsService logSourcesService config (w, log)
  = (Fulfilled result, s') ->
  (type (logIndices logViewAttributes) = "index_name"
   \/ type (logIndices logViewAttributes) = "kibana_advanced_setting" ->
     runtimeMappings result = ∅ /\ timestampField result = TIMESTAMP_FIELD)
  /\ (runtimeMappings result ≠ ∅ \/ timestampField result ≠ TIMESTAMP_FIELD ->
        type (logIndices logViewAttributes) = "data_view").
Proof.
  intros Hrun.
  destruct (resolveLogView_fulfilled_inv _ _ _ _ _ _ _ _ _ Hrun)
    as [(Htype & dataView & w' & _ & Hresult)
       |[(Htype & dataView & w' & _ & Hresult)
        |(Htype & logSources & w1 & dataView & w2 & _ & _ & Hresult)]];
    rewrite Hresult; simpl; split.
  - now intros _.
  - intros [Hne|Hne]; now contradict Hne.
  - rewrite Htype. intros [Hother|Hother]; discriminate Hother.
  - now intros _.
  - now intros _.
  - intros [Hne|Hne]; now contradict Hne.
Qed.

(** ** Service calls *)

(** C7: one invocation of [resolveLogView] appends to the call log at
    most one call of [dataViewsService.create], at most one of
    [dataViewsService.get] and at most one of
    [logSourcesService.getLogSources], whether those calls are fulfilled
    or rejected: no call is made a second time. *)
Theorem resolveLogView_services_called_at_most_once
    logViewId logViewAttributes dataViewsService logSourcesService config w log :
  exists made : list ServiceCall,
    snd (snd (resolveLogView ToString TIMESTAMP_FIELD TIEBREAKER_FIELD
                defaultLogViewsStaticConfig_messageFields
                logViewId logViewAttributes dataViewsService logSourcesService config
                (w, log)))
    = (log ++ made)%list
    /\ calls is_create made <= 1
    /\ calls is_get made <= 1
    /\ calls is_getLogSources made <= 1.
Proof.
  destruct (decide (type (logIndices logViewAttributes) = "index_name")) as [Hlegacy|Hlegacy].
  { rewrite resolveLogView_index_name, resolveLegacyReference_run by exact Hlegacy.
    cbv zeta.
    destruct (create dataViewsService _ false false w) as [[dataView|e] w'];
      eexists; (split; [reflexivity|]); cbn; lia. }
  destruct (decide (type (logIndices logViewAttributes) = "data_view")) as [Hview|Hview].
  { rewrite resolveLogView_data_view, resolveDataViewReference_run by exact Hview.
    cbv zeta.
    destruct (get dataViewsService _ w) as [[dataView|e] w'];
      eexists; (split; [reflexivity|]); cbn; lia. }
  rewrite resolveLogView_otherwise by assumption.
  destruct (decide (type (logIndices logViewAttributes) = "kibana_advanced_setting"))
    as [Hsetting|Hsetting].
  - rewrite resolveKibanaAdvancedSettingReference_run by exact Hsetting.
    destruct (getLogSources logSourcesService w) as [[logSources|e] w1].
    + cbv zeta.
      destruct (create dataViewsService _ false false w1) as [[dataView|e] w2];
        eexists; (split; [reflexivity|]); cbn; lia.
    + eexists; (split; [reflexivity|]); cbn; lia.
  - rewrite resolveKibanaAdvancedSettingReference_guard by exact Hsetting.
    exists []. split; [now rewrite app_nil_r|]. cbn; lia.
Qed.

(** ** Failures of the services *)

(** X1: a rejection of [dataViewsService.create] or [dataViewsService.get] is
    rethrown as a [ResolveLogViewError] whose cause is the original
    error. *)
Theorem dataViewsService_failure_wrapped
    logViewId logViewAttributes dataViewsService logSourcesService config w log :
  let run :=
    resolveLogView ToString TIMESTAMP_FIELD TIEBREAKER_FIELD
      defaultLogViewsStaticConfig_messageFields
      logViewId logViewAttributes dataViewsService logSourcesService config (w, log) in
  (forall e w',
     type (logIndices logViewAttributes) = "index_name" ->
     create dataViewsService
       (created_spec TIMESTAMP_FIELD logViewId (name logViewAttributes)
          (indexName (logIndices logViewAttributes))) false false w
     = (Rejected e, w') ->
     fst run = Rejected (ResolveLogViewError
                           ("Failed to create Data View reference: " +:+ ToString e) e))
  /\ (forall e w',
        type (logIndices logViewAttributes) = "data_view" ->
        get dataViewsService (dataViewId (logIndices logViewAttributes)) w
        = (Rejected e, w') ->
        exists message, fst run = Rejected (ResolveLogViewError message e))
  /\ (forall logSources w1 e w2,
        type (logIndices logViewAttributes) = "kibana_advanced_setting" ->
        getLogSources logSourcesService w = (Fulfilled logSources, w1) ->
        create dataViewsService
          (created_spec TIMESTAMP_FIELD logViewId (name logViewAttributes)
             (join "," (List.map indexPattern logSources))) false false w1
        = (Rejected e, w2) ->
        fst run = Rejected (ResolveLogViewError
                              ("Failed to create Data View reference: " +:+ ToString e) e)).
Proof.
  intros run. subst run. repeat split.
  - intros e w' Hlegacy Hcreate.
    rewrite resolveLogView_index_name, resolveLegacyReference_run by exact Hlegacy.
    cbv zeta. now rewrite Hcreate.
  - intros e w' Hview Hget.
    rewrite resolveLogView_data_view, resolveDataViewReference_run by exact Hview.
    cbv zeta. rewrite Hget. now eexists.
  - intros logSources w1 e w2 Hsetting Hsources Hcreate.
    rewrite resolveLogView_otherwise by (rewrite Hsetting; discriminate).
    rewrite resolveKibanaAdvancedSettingReference_run by exact Hsetting.
    rewrite Hsources. cbv zeta. now rewrite Hcreate.
Qed.

(** X2: a rejection of [logSourcesService.getLogSources] is not caught: the
    resolution is rejected with the very error of the service, and
    [dataViewsService.create] is not called. *)
Theorem getLogSources_failure_propagates
    logViewId logViewAttributes dataViewsService logSourcesService config w log e w1 :
  type (logIndices logViewAttributes) = "kibana_advanced_setting" ->
  getLogSources logSourcesService w = (Rejected e, w1) ->
  resolveLogView ToString TIMESTAMP_FIELD TIEBREAKER_FIELD
    defaultLogViewsStaticConfig_messageFields
    logViewId logViewAttributes dataViewsService logSourcesService config (w, log)
  = (Rejected e, (w1, (log ++ [GetLogSources])%list)).
Proof.
  intros Hsetting Hsources.
  rewrite resolveLogView_otherwise by (rewrite Hsetting; discriminate).
  rewrite resolveKibanaAdvancedSettingReference_run by exact Hsetting.
  now rewrite Hsources.
Qed.

(** ** Rejected resolutions *)

(** X6: a rejected [resolveLogView] is of one of four kinds.  Under
    'index_name' the creation was rejected and the error is a
    [ResolveLogViewError] around its error; under 'data_view' the same
    holds of the fetch, the message quoting the data view id; under
    'kibana_advanced_setting' either the log sources were rejected and
    the error is theirs as it is, or the creation was rejected and
    wrapped; under any other tag the error is the plain [Error] of the
    guard. *)
Theorem resolveLogView_rejected_inv
    logViewId logViewAttributes dataViewsService logSourcesService config w log e s' :
  resolveLogView ToString TIMESTAMP_FIELD TIEBREAKER_FIELD
    defaultLogViewsStaticConfig_messageFields
    logViewId logViewAttributes dataViewsService logSourcesService config (w, log)
  = (Rejected e, s') ->
  (type (logIndices logViewAttributes) = "index_name"
   /\ exists cause w',
        create dataViewsService
          (created_spec TIMESTAMP_FIELD logViewId (name logViewAttributes)
             (indexName (logIndices logViewAttributes))) false false w
        = (Rejected cause, w')
        /\ e = ResolveLogViewError
                 ("Failed to create Data View reference: " +:+ ToString cause) cause)
  \/ (type (logIndices logViewAttributes) = "data_view"
      /\ exists cause w',
           get dataViewsService (dataViewId (logIndices logViewAttributes)) w
           = (Rejected cause, w')
           /\ e = ResolveLogViewError
                    ("Failed to fetch data view " +:+ double_quote
                       +:+ dataViewId (logIndices logViewAttributes)
                       +:+ double_quote +:+ ": " +:+ ToString cause) cause)
  \/ (type (logIndices logViewAttributes) = "kibana_advanced_setting"
      /\ ((exists w1, getLogSources logSourcesService w = (Rejected e, w1))
          \/ exists logSources w1 cause w2,
               getLogSources logSourcesService w = (Fulfilled logSources, w1)
               /\ create dataViewsService
                    (created_spec TIMESTAMP_FIELD logViewId (name logViewAttributes)
                       (join "," (List.map indexPattern logSources))) false false w1
                  = (Rejected cause, w2)
               /\ e = ResolveLogViewError
                        ("Failed to create Data View reference: " +:+ ToString cause)
                        cause))
  \/ (type (logIndices logViewAttributes) ≠ "index_name"
      /\ type (logIndices logViewAttributes) ≠ "data_view"
      /\ type (logIndices logViewAttributes) ≠ "kibana_advanced_setting"
      /\ e = Error
               "This function can only resolve references to the Log Sources Kibana advanced setting"
      /\ s' = (w, log)).
Proof.
  intros Hrun.
  destruct (decide (type (logIndices logViewAttributes) = "index_name")) as [Hlegacy|Hlegacy].
  { left. split; [exact Hlegacy|].
    rewrite resolveLogView_index_name, resolveLegacyReference_run in Hrun by exact Hlegacy.
    cbv zeta in Hrun.
    destruct (create dataViewsService _ false false w) as [[dataView|cause] w'] eqn:Hcreate;
      [discriminate Hrun|].
    exists cause, w'. split; [reflexivity|]. now injection Hrun as <- _. }
  destruct (decide (type (logIndices logViewAttributes) = "data_view")) as [Hview|Hview].
  { right; left. split; [exact Hview|].
    rewrite resolveLogView_data_view, resolveDataViewReference_run in Hrun by exact Hview.
    cbv zeta in Hrun.
    destruct (get dataViewsService _ w) as [[dataView|cause] w'] eqn:Hget;
      [discriminate Hrun|].
    exists cause, w'. split; [reflexivity|]. now injection Hrun as <- _. }
  rewrite resolveLogView_otherwise in Hrun by assumption.
  destruct (decide (type (logIndices logViewAttributes) = "kibana_advanced_setting"))
    as [Hsetting|Hsetting].
  - right; right; left. split; [exact Hsetting|].
    rewrite resolveKibanaAdvancedSettingReference_run in Hrun by exact Hsetting.
    destruct (getLogSources logSourcesService w) as [[logSources|e0] w1] eqn:Hsources.
    + right. cbv zeta in Hrun.
      destruct (create dataViewsService _ false false w1) as [[dataView|cause] w2]
        eqn:Hcreate; [discriminate Hrun|].
      exists logSources, w1, cause, w2. repeat split; [exact Hcreate|].
      now injection Hrun as <- _.
    + left. exists w1. now injection Hrun as <- _.
  - right; right; right.
    rewrite resolveKibanaAdvancedSettingReference_guard in Hrun by exact Hsetting.
    injection Hrun as <- <-. now repeat split.
Qed.

(** ** Which resolutions are fulfilled *)

(** X12: [resolveLogView] is fulfilled exactly when its tag is one of
    the three known ones and every service call of the branch of that tag
    is fulfilled: the creation under 'index_name', the fetch under
    'data_view', the log sources and then the creation, in the world the
    log sources leave, under 'kibana_advanced_setting'. *)
Theorem resolveLogView_fulfilled_iff
    logViewId logViewAttributes dataViewsService logSourcesService config w log :
  (exists result s',
     resolveLogView ToString TIMESTAMP_FIELD TIEBREAKER_FIELD
       defaultLogViewsStaticConfig_messageFields
       logViewId logViewAttributes dataViewsService logSourcesService config (w, log)
     = (Fulfilled result, s'))
  <-> (type (logIndices logViewAttributes) = "index_name"
       /\ exists dataView w',
            create dataViewsService
              (created_spec TIMESTAMP_FIELD logViewId (name logViewAttributes)
                 (indexName (logIndices logViewAttributes))) false false w
            = (Fulfilled dataView, w'))
      \/ (type (logIndices logViewAttributes) = "data_view"
          /\ exists dataView w',
               get dataViewsService (dataViewId (logIndices logViewAttributes)) w
               = (Fulfilled dataView, w'))
      \/ (type (logIndices logViewAttributes) = "kibana_advanced_setting"
          /\ exists logSources w1 dataView w2,
               getLogSources logSourcesService w = (Fulfilled logSources, w1)
               /\ create dataViewsService
                    (created_spec TIMESTAMP_FIELD logViewId (name logViewAttributes)
                       (join "," (List.map indexPattern logSources))) false false w1
                  = (Fulfilled dataView, w2)).
Proof.
  split.
  - intros (result & s' & Hrun).
    destruct (resolveLogView_fulfilled_inv _ _ _ _ _ _ _ _ _ Hrun)
      as [(Htype & dataView & w' & Hcreate & _)
         |[(Htype & dataView & w' & Hget & _)
          |(Htype & logSources & w1 & dataView & w2 & Hsources & Hcreate & _)]].
    + left. eauto.
    + right; left. eauto.
    + right; right. split; [exact Htype|]. eauto 6.
  - intros [(Htype & dataView & w' & Hcreate)
           |[(Htype & dataView & w' & Hget)
            |(Htype & logSources & w1 & dataView & w2 & Hsources & Hcreate)]].
    + rewrite resolveLogView_index_name, resolveLegacyReference_run by exact Htype.
      cbv zeta. rewrite Hcreate. eauto.
    + rewrite resolveLogView_data_view, resolveDataViewReference_run by exact Htype.
      cbv zeta. rewrite Hget. eauto.
    + rewrite resolveLogView_otherwise by (rewrite Htype; discriminate).
      rewrite resolveKibanaAdvancedSettingReference_run by exact Htype.
      rewrite Hsources. cbv zeta. rewrite Hcreate. eauto.
Qed.

(** X4: in every fulfilled resolution, whatever the tag, [fields] is the
    field list of the very data view the result refers to. *)
Theorem resolveLogView_fields_of_reference
    logViewId logViewAttributes dataViewsService logSourcesService config w log result s' :
  resolveLogView ToString TIMESTAMP_FIELD TIEBREAKER_FIELD
    defaultLogViewsStaticConfig_messageFields
    logViewId logViewAttributes dataViewsService logSourcesService config (w, log)
  = (Fulfilled result, s') ->
  fields result = dv_fields (dataViewReference result).
Proof.
  intros Hrun.
  destruct (resolveLogView_fulfilled_inv _ _ _ _ _ _ _ _ _ Hrun)
    as [(_ & dataView & w' & _ & ->)
       |[(_ & dataView & w' & _ & ->)
        |(_ & logSources & w1 & dataView & w2 & _ & _ & ->)]];
    reflexivity.
Qed.

(** ** The calls one invocation makes *)

(** The calls one invocation appends to the call log, by tag. *)
Lemma resolveLogView_calls_made
    logViewId logViewAttributes dataViewsService logSourcesService config w log :
  let t := type (logIndices logViewAttributes) in
  exists made : list ServiceCall,
    snd (snd (resolveLogView ToString TIMESTAMP_FIELD TIEBREAKER_FIELD
                defaultLogViewsStaticConfig_messageFields
                logViewId logViewAttributes dataViewsService logSourcesService config
                (w, log)))
    = (log ++ made)%list
    /\ ((t = "index_name"
         /\ made = [DataViewsCreate
                      (created_spec TIMESTAMP_FIELD logViewId (name logViewAttributes)
                         (indexName (logIndices logViewAttributes))) false false])
        \/ (t = "data_view"
            /\ made = [DataViewsGet (dataViewId (logIndices logViewAttributes))])
        \/ (t = "kibana_advanced_setting"
            /\ ((exists e w1, getLogSources logSourcesService w = (Rejected e, w1))
                /\ made = [GetLogSources]
                \/ exists logSources w1,
                     getLogSources logSourcesService w = (Fulfilled logSources, w1)
                     /\ made = [GetLogSources;
                                DataViewsCreate
                                  (created_spec TIMESTAMP_FIELD logViewId
                                     (name logViewAttributes)
                                     (join "," (List.map indexPattern logSources)))
                                  false false]))
        \/ (t ≠ "index_name" /\ t ≠ "data_view" /\ t ≠ "kibana_advanced_setting"
            /\ made = [])).
Proof.
  intros t. subst t.
  destruct (decide (type (logIndices logViewAttributes) = "index_name")) as [Hlegacy|Hlegacy].
  { rewrite resolveLogView_index_name, resolveLegacyReference_run by exact Hlegacy.
    cbv zeta.
    destruct (create dataViewsService _ false false w) as [[dataView|e] w'];
      eexists; (split; [reflexivity|]); left; now split. }
  destruct (decide (type (logIndices logViewAttributes) = "data_view")) as [Hview|Hview].
  { rewrite resolveLogView_data_view, resolveDataViewReference_run by exact Hview.
    cbv zeta.
    destruct (get dataViewsService _ w) as [[dataView|e] w'];
      eexists; (split; [reflexivity|]); right; left; now split. }
  rewrite resolveLogView_otherwise by assumption.
  destruct (decide (type (logIndices logViewAttributes) = "kibana_advanced_setting"))
    as [Hsetting|Hsetting].
  - rewrite resolveKibanaAdvancedSettingReference_run by exact Hsetting.
    destruct (getLogSources logSourcesService w) as [[logSources|e] w1] eqn:Hsources.
    + cbv zeta.
      destruct (create dataViewsService _ false false w1) as [[dataView|e] w2];
        eexists; (split; [reflexivity|]); right; right; left;
        (split; [exact Hsetting|]); right; exists logSources, w1; now split.
    + eexists; (split; [reflexivity|]). right; right; left.
      split; [exact Hsetting|]. left. split; [now exists e, w1|reflexivity].
  - rewrite resolveKibanaAdvancedSettingReference_guard by exact Hsetting.
    exists []. split; [now rewrite app_nil_r|]. right; right; right. now repeat split.
Qed.

(** X5: which service is called follows from the tag alone.
    [dataViewsService.get] is called, once, exactly under 'data_view';
    [logSourcesService.getLogSources] is called, once, exactly under
    'kibana_advanced_setting'; [dataViewsService.create] is called once
    under 'index_name', under 'kibana_advanced_setting' once when the log
    sources were fulfilled and not at all when they were rejected, and
    never under any other tag. *)
Theorem resolveLogView_service_use_by_tag
    logViewId logViewAttributes dataViewsService logSourcesService config w log :
  let t := type (logIndices logViewAttributes) in
  exists made : list ServiceCall,
    snd (snd (resolveLogView ToString TIMESTAMP_FIELD TIEBREAKER_FIELD
                defaultLogViewsStaticConfig_messageFields
                logViewId logViewAttributes dataViewsService logSourcesService config
                (w, log)))
    = (log ++ made)%list
    /\ calls is_get made = (if decide (t = "data_view") then 1 else 0)
    /\ calls is_getLogSources made
       = (if decide (t = "kibana_advanced_setting") then 1 else 0)
    /\ (t = "index_name" -> calls is_create made = 1)
    /\ (t = "kibana_advanced_setting" ->
          calls is_create made
          = match fst (getLogSources logSourcesService w) with
            | Fulfilled _ => 1
            | Rejected _ => 0
            end)
    /\ (t ≠ "index_name" -> t ≠ "kibana_advanced_setting" -> calls is_create made = 0).
Proof.
  intros t.
  destruct (resolveLogView_calls_made logViewId logViewAttributes dataViewsService
              logSourcesService config w log)
    as (made & Hlog & Hmade).
  exists made. split; [exact Hlog|]. fold t in Hmade.
  destruct Hmade
    as [(Htype & ->)
       |[(Htype & ->)
        |[(Htype & [((e & w1 & Hsources) & ->)|(logSources & w1 & Hsources & ->)])
         |(Hlegacy & Hview & Hsetting & ->)]]];
    try rewrite Hsources; try rewrite Htype;
    repeat case_decide; try discriminate; try contradiction;
    repeat split; intros; try reflexivity; try discriminate; try contradiction.
Qed.

(** X8: every call of [dataViewsService.create] the resolver makes,
    under whatever tag, hands over a specification whose id is 'log-view-'
    followed by the log view id, whose name is the name of the log view,
    whose time field is [TIMESTAMP_FIELD] and which allows no index, with
    both flags false. *)
Theorem resolveLogView_create_call_shape
    logViewId logViewAttributes dataViewsService logSourcesService config w log
    spec skipFetchFields displayErrors :
  In (DataViewsCreate spec skipFetchFields displayErrors)
     (drop (length log)
        (snd (snd (resolveLogView ToString TIMESTAMP_FIELD TIEBREAKER_FIELD
                     defaultLogViewsStaticConfig_messageFields
                     logViewId logViewAttributes dataViewsService logSourcesService
                     config (w, log))))) ->
  spec_id spec = "log-view-" +:+ logViewId
  /\ spec_name spec = name logViewAttributes
  /\ spec_timeFieldName spec = TIMESTAMP_FIELD
  /\ spec_allowNoIndex spec = true
  /\ skipFetchFields = false
  /\ displayErrors = false.
Proof.
  destruct (resolveLogView_calls_made logViewId logViewAttributes dataViewsService
              logSourcesService config w log)
    as (made & -> & Hmade).
  rewrite drop_app_length.
  destruct Hmade
    as [(_ & ->)
       |[(_ & ->)
        |[(_ & [(_ & ->)|(logSources & w1 & _ & ->)])
         |(_ & _ & _ & ->)]]];
    simpl; intros Hin;
    repeat match type of Hin with
           | _ \/ _ => destruct Hin as [Hin|Hin]
           | False => contradiction
           end;
    try discriminate Hin; now injection Hin as <- <- <-.
Qed.

(** X9: the data view a log view gets created has an id of its own: when
    two invocations, of whatever log views and services, each call
    [dataViewsService.create] and the two specifications have the same
    id, the two log view ids are the same. *)
Theorem resolveLogView_created_id_injective
    logViewId1 logViewAttributes1 dataViewsService1 logSourcesService1 config1 w1 log1
    logViewId2 logViewAttributes2 dataViewsService2 logSourcesService2 config2 w2 log2
    spec1 spec2 skip1 display1 skip2 display2 :
  In (DataViewsCreate spec1 skip1 display1)
     (drop (length log1)
        (snd (snd (resolveLogView ToString TIMESTAMP_FIELD TIEBREAKER_FIELD
                     defaultLogViewsStaticConfig_messageFields
                     logViewId1 logViewAttributes1 dataViewsService1 logSourcesService1
                     config1 (w1, log1))))) ->
  In (DataViewsCreate spec2 skip2 display2)
     (drop (length log2)
        (snd (snd (resolveLogView ToString TIMESTAMP_FIELD TIEBREAKER_FIELD
                     defaultLogViewsStaticConfig_messageFields
                     logViewId2 logViewAttributes2 dataViewsService2 logSourcesService2
                     config2 (w2, log2))))) ->
  spec_id spec1 = spec_id spec2 ->
  logViewId1 = logViewId2.
Proof.
  assert (Hid : forall logViewId logViewAttributes dataViewsService logSourcesService
                  config w log spec skip display,
             In (DataViewsCreate spec skip display)
                (drop (length log)
                   (snd (snd (resolveLogView ToString TIMESTAMP_FIELD TIEBREAKER_FIELD
                                defaultLogViewsStaticConfig_messageFields
                                logViewId logViewAttributes dataViewsService
                                logSourcesService config (w, log))))) ->
             spec_id spec = "log-view-" +:+ logViewId).
  { intros logViewId logViewAttributes dataViewsService logSourcesService config w log
      spec skip display.
    destruct (resolveLogView_calls_made logViewId logViewAttributes dataViewsService
                logSourcesService config w log)
      as (made & -> & Hmade).
    rewrite drop_app_length.
    destruct Hmade
      as [(_ & ->)
         |[(_ & ->)
          |[(_ & [(_ & ->)|(logSources & w' & _ & ->)])
           |(_ & _ & _ & ->)]]];
      simpl; intros Hin;
      repeat match type of Hin with
             | _ \/ _ => destruct Hin as [Hin|Hin]
             | False => contradiction
             end;
      try discriminate Hin; now injection Hin as <-. }
  intros Hin1 Hin2 Hsame.
  apply Hid in Hin1. apply Hid in Hin2.
  rewrite Hin1, Hin2 in Hsame. exact (String.app_inj _ _ _ Hsame).
Qed.

(** ** The legacy branch *)

(** X7: under the tag 'index_name', when the creation is fulfilled the
    resolution is fulfilled after that single call, and the configured
    index name is, unchanged, both the title of the data view that was
    created and the [indices] of the result, whose [dataViewReference] is
    the data view the service answered with. *)
Theorem resolveLogView_index_name_result
    logViewId logViewAttributes dataViewsService logSourcesService config w log
    (dataView : @DataView FieldSpec RuntimeField) w' :
  type (logIndices logViewAttributes) = "index_name" ->
  create dataViewsService
    (created_spec TIMESTAMP_FIELD logViewId (name logViewAttributes)
       (indexName (logIndices logViewAttributes))) false false w
  = (Fulfilled dataView, w') ->
  exists result spec,
    resolveLogView ToString TIMESTAMP_FIELD TIEBREAKER_FIELD
      defaultLogViewsStaticConfig_messageFields
      logViewId logViewAttributes dataViewsService logSourcesService config (w, log)
    = (Fulfilled result, (w', (log ++ [DataViewsCreate spec false false])%list))
    /\ spec_title spec = indexName (logIndices logViewAttributes)
    /\ indices result = indexName (logIndices logViewAttributes)
    /\ dataViewReference result = dataView.
Proof.
  intros Hlegacy Hcreate.
  rewrite resolveLogView_index_name, resolveLegacyReference_run by exact Hlegacy.
  cbv zeta. rewrite Hcreate. eexists _, _. split; [reflexivity|]. now simpl.
Qed.

(** ** No log source *)

(** X11: an empty list of log sources is no error: under the tag
    'kibana_advanced_setting', when [getLogSources] is fulfilled with no
    source, the data view is still created, with the empty string as its
    title, and a fulfilled resolution has the empty string as [indices]. *)
Theorem resolveLogView_no_log_sources
    logViewId logViewAttributes dataViewsService logSourcesService config w log w1 :
  type (logIndices logViewAttributes) = "kibana_advanced_setting" ->
  getLogSources logSourcesService w = (Fulfilled [], w1) ->
  let run :=
    resolveLogView ToString TIMESTAMP_FIELD TIEBREAKER_FIELD
      defaultLogViewsStaticConfig_messageFields
      logViewId logViewAttributes dataViewsService logSourcesService config (w, log) in
  exists spec,
    spec_title spec = ""
    /\ snd (snd run) = (log ++ [GetLogSources; DataViewsCreate spec false false])%list
    /\ (forall result, fst run = Fulfilled result -> indices result = "")
    /\ (forall dataView w2,
          create dataViewsService spec false false w1 = (Fulfilled dataView, w2) ->
          exists result, fst run = Fulfilled result).
Proof.
  intros Hsetting Hsources run. subst run.
  rewrite resolveLogView_otherwise by (rewrite Hsetting; discriminate).
  rewrite resolveKibanaAdvancedSettingReference_run by exact Hsetting.
  rewrite Hsources. cbv zeta.
  change (join "," (List.map indexPattern [])) with "".
  exists (created_spec TIMESTAMP_FIELD logViewId (name logViewAttributes) "").
  split; [reflexivity|].
  destruct (create dataViewsService _ false false w1) as [[dataView|e] w2]; simpl.
  - repeat split.
    + now intros result [= <-].
    + intros. now eexists.
  - repeat split; intros; discriminate.
Qed.

(** ** Inputs a branch does not read *)

(** X10: [config] is read under the tag 'index_name' only,
    [logSourcesService] is read neither under 'index_name' nor under
    'data_view', and the log view id is not read under 'data_view':
    changing such an input changes nothing of the resolution. *)
Theorem resolveLogView_unread_inputs
    logViewId logViewAttributes dataViewsService logSourcesService config :
  let t := type (logIndices logViewAttributes) in
  (t ≠ "index_name" ->
     forall config',
       resolveLogView ToString TIMESTAMP_FIELD TIEBREAKER_FIELD
         defaultLogViewsStaticConfig_messageFields
         logViewId logViewAttributes dataViewsService logSourcesService config
       = resolveLogView ToString TIMESTAMP_FIELD TIEBREAKER_FIELD
           defaultLogViewsStaticConfig_messageFields
           logViewId logViewAttributes dataViewsService logSourcesService config')
  /\ (t = "index_name" \/ t = "data_view" ->
        forall logSourcesService',
          resolveLogView ToString TIMESTAMP_FIELD TIEBREAKER_FIELD
            defaultLogViewsStaticConfig_messageFields
            logViewId logViewAttributes dataViewsService logSourcesService config
          = resolveLogView ToString TIMESTAMP_FIELD TIEBREAKER_FIELD
              defaultLogViewsStaticConfig_messageFields
              logViewId logViewAttributes dataViewsService logSourcesService' config)
  /\ (t = "data_view" ->
        forall logViewId',
          resolveLogView ToString TIMESTAMP_FIELD TIEBREAKER_FIELD
            defaultLogViewsStaticConfig_messageFields
            logViewId logViewAttributes dataViewsService logSourcesService config
          = resolveLogView ToString TIMESTAMP_FIELD TIEBREAKER_FIELD
              defaultLogViewsStaticConfig_messageFields
              logViewId' logViewAttributes dataViewsService logSourcesService config).
Proof.
  intros t. subst t. repeat split.
  - intros Hlegacy config'. unfold resolveLogView.
    apply String.eqb_neq in Hlegacy. now rewrite Hlegacy.
  - intros [Htype|Htype] logSourcesService'.
    + now rewrite !resolveLogView_index_name by exact Htype.
    + now rewrite !resolveLogView_data_view by exact Htype.
  - intros Hview logViewId'. now rewrite !resolveLogView_data_view by exact Hview.
Qed.

End Properties.

(** ** The localized constant *)

(** C10: [ML_JOB_SELECT_PLACEHOLDER_TEXT] is the translation of one fixed
    message whose default message is 'Select a job': wherever the active
    locale has no translation of that message, so that [i18n.translate]
    answers with the default message, the constant is 'Select a job'.  It
    takes nothing from the log view resolver or from any input. *)
Theorem ML_JOB_SELECT_PLACEHOLDER_TEXT_default
    (i18n_translate : string -> TranslateArguments -> string) :
  (forall args,
     i18n_translate
       "xpack.securitySolution.detectionEngine.createRule.stepDefineRule.mlJobSelectPlaceholderText"
       args
     = defaultMessage args) ->
  ML_JOB_SELECT_PLACEHOLDER_TEXT i18n_translate = "Select a job".
Proof. intros Hdefault. unfold ML_JOB_SELECT_PLACEHOLDER_TEXT. now rewrite Hdefault. Qed.

Lemma ML_JOB_SELECT_PLACEHOLDER_TEXT_default_witness :
  ML_JOB_SELECT_PLACEHOLDER_TEXT (Sample.translate ∅) = "Select a job".
Proof.
  apply ML_JOB_SELECT_PLACEHOLDER_TEXT_default.
  intros args. unfold Sample.translate. now rewrite lookup_empty.
Defined.

Example ML_JOB_SELECT_PLACEHOLDER_TEXT_translated :
  ML_JOB_SELECT_PLACEHOLDER_TEXT
    (Sample.translate
       {[ "xpack.securitySolution.detectionEngine.createRule.stepDefineRule.mlJobSelectPlaceholderText"
          := "Seleccione un trabajo" ]})
  = "Seleccione un trabajo".
Proof.
  unfold ML_JOB_SELECT_PLACEHOLDER_TEXT, Sample.translate.
  now rewrite lookup_singleton_eq.
Qed.

(** ** The properties at the sample inputs *)

Lemma resolveLogView_data_view_result_witness :
  exists result,
    resolveLogView Sample.render "@timestamp" "_doc" ["message"; "@message"]
      "default" (Sample.attributes "data_view") Sample.dataViews Sample.logSources
      Sample.config (0, [])
    = (Fulfilled result, (1, [DataViewsGet "dv-1"]))
    /\ indices result = "metrics-*"
    /\ timestampField result = "event.time"
    /\ runtimeMappings result = {[ "day_of_week" := "keyword" ]}
    /\ messageField result = ["message"]
    /\ dataViewReference result = Sample.storedView.
Proof.
  exact (resolveLogView_data_view_result Sample.render "@timestamp" "_doc"
           ["message"; "@message"] "default" (Sample.attributes "data_view")
           Sample.dataViews Sample.logSources Sample.config 0 [] Sample.storedView 1
           eq_refl eq_refl).
Defined.

Lemma resolveLogView_unknown_type_generic_error_witness :
  exists e : Thrown string,
    resolveLogView Sample.render "@timestamp" "_doc" ["message"; "@message"]
      "default" (Sample.attributes "elasticsearch_index") Sample.dataViews
      Sample.logSources Sample.config (7, [GetLogSources])
    = (Rejected e, (7, [GetLogSources]))
    /\ e = Error
             "This function can only resolve references to the Log Sources Kibana advanced setting"
    /\ is_ResolveLogViewError e = false.
Proof.
  apply (resolveLogView_unknown_type_generic_error Sample.render "@timestamp" "_doc"
           ["message"; "@message"] "default" (Sample.attributes "elasticsearch_index")
           Sample.dataViews Sample.logSources Sample.config 7 [GetLogSources]);
    discriminate.
Defined.

Lemma resolveLogView_advanced_setting_indices_witness :
  let run :=
    resolveLogView Sample.render "@timestamp" "_doc" ["message"; "@message"]
      "default" (Sample.attributes "kibana_advanced_setting") Sample.dataViews
      Sample.logSources Sample.config (0, []) in
  exists spec,
    spec_title spec = "logs-*-*,logs-*,filebeat-*"
    /\ snd (snd run) = [GetLogSources; DataViewsCreate spec false false]
    /\ (forall result, fst run = Fulfilled result ->
          indices result = "logs-*-*,logs-*,filebeat-*")
    /\ (forall dataView w2,
          create Sample.dataViews spec false false 1 = (Fulfilled dataView, w2) ->
          exists result, fst run = Fulfilled result /\ dataViewReference result = dataView).
Proof.
  exact (resolveLogView_advanced_setting_indices Sample.render "@timestamp" "_doc"
           ["message"; "@message"] "default" (Sample.attributes "kibana_advanced_setting")
           Sample.dataViews Sample.logSources Sample.config 0 []
           [ {| indexPattern := "logs-*-*" |}; {| indexPattern := "logs-*" |};
             {| indexPattern := "filebeat-*" |} ] 1
           eq_refl eq_refl).
Defined.

Lemma resolveLogView_messageField_witness :
  exists result s',
    resolveLogView Sample.render "@timestamp" "_doc" ["message"; "@message"]
      "default" (Sample.attributes "index_name") Sample.dataViews Sample.logSources
      Sample.config (0, [])
    = (Fulfilled result, s')
    /\ messageField result = ["log.original"].
Proof.
  eexists _, _. split; [lazy; reflexivity|].
  exact (proj1 (resolveLogView_messageField Sample.render "@timestamp" "_doc"
                  ["message"; "@message"] "default" (Sample.attributes "index_name")
                  Sample.dataViews Sample.logSources Sample.config 0 [] _ _ eq_refl)
           eq_refl).
Defined.

Lemma resolveLogView_common_fields_witness :
  exists result s',
    resolveLogView Sample.render "@timestamp" "_doc" ["message"; "@message"]
      "default" (Sample.attributes "kibana_advanced_setting") Sample.dataViews
      Sample.logSources Sample.noConfig (0, [])
    = (Fulfilled result, s')
    /\ tiebreakerField result = "_doc"
    /\ r_name result = "Production logs"
    /\ r_description result = "All production log indices"
    /\ columns result = ["timestamp"; "message"].
Proof.
  eexists _, _. split; [lazy; reflexivity|].
  exact (resolveLogView_common_fields Sample.render "@timestamp" "_doc"
           ["message"; "@message"] "default" (Sample.attributes "kibana_advanced_setting")
           Sample.dataViews Sample.logSources Sample.noConfig 0 [] _ _ eq_refl).
Defined.

Lemma resolveLogView_runtimeMappings_timestampField_witness :
  exists result s',
    resolveLogView Sample.render "@timestamp" "_doc" ["message"; "@message"]
      "default" (Sample.attributes "index_name") Sample.dataViews Sample.logSources
      Sample.noConfig (0, [])
    = (Fulfilled result, s')
    /\ runtimeMappings result = ∅
    /\ timestampField result = "@timestamp".
Proof.
  eexists _, _. split; [lazy; reflexivity|].
  exact (proj1 (resolveLogView_runtimeMappings_timestampField Sample.render "@timestamp"
                  "_doc" ["message"; "@message"] "default"
                  (Sample.attributes "index_name") Sample.dataViews Sample.logSources
                  Sample.noConfig 0 [] _ _ eq_refl)
           (or_introl eq_refl)).
Defined.

(** The data view branch does produce runtime mappings and a timestamp
    field of its own. *)
Example resolveLogView_data_view_own_mappings :
  exists result s',
    resolveLogView Sample.render "@timestamp" "_doc" ["message"; "@message"]
      "default" (Sample.attributes "data_view") Sample.dataViews Sample.logSources
      Sample.config (0, [])
    = (Fulfilled result, s')
    /\ runtimeMappings result !! "day_of_week" = Some "keyword"
    /\ timestampField result = "event.time".
Proof.
  eexists _, _. split.
  - rewrite resolveLogView_data_view, resolveDataViewReference_run by reflexivity.
    simpl. reflexivity.
  - split; [apply lookup_singleton_eq | reflexivity].
Qed.

(** ** Failures at the sample inputs *)

(** C2, at the input where it fails: with a log sources service that is
    down, the resolution under the tag 'kibana_advanced_setting' is
    rejected with the error of the service as it is, not with a
    [ResolveLogViewError] around it. *)
Lemma resolveLogView_getLogSources_failure_unwrapped :
  resolveLogView Sample.render "@timestamp" "_doc" ["message"; "@message"]
    "default" (Sample.attributes "kibana_advanced_setting") Sample.dataViews
    Sample.logSourcesDown Sample.config (0, [])
  = (Rejected (Reason "uiSettings unavailable"), (1, [GetLogSources]))
  /\ is_ResolveLogViewError (Reason "uiSettings unavailable") = false.
Proof. split; reflexivity. Qed.

Example resolveLogView_create_failure_wrapped :
  resolveLogView Sample.render "@timestamp" "_doc" ["message"; "@message"]
    "default" (Sample.attributes "index_name") Sample.dataViewsDown
    Sample.logSources Sample.config (0, [])
  = (Rejected (ResolveLogViewError
                 "Failed to create Data View reference: 503 Service Unavailable"
                 (Reason "503 Service Unavailable")),
     (1, [DataViewsCreate
            (created_spec "@timestamp" "default" "Production logs" "logs-*,filebeat-*")
            false false])).
Proof. reflexivity. Qed.

Example resolveLogView_get_failure_wrapped :
  fst (resolveLogView Sample.render "@timestamp" "_doc" ["message"; "@message"]
         "default" (Sample.attributes "data_view") Sample.dataViewsDown
         Sample.logSources Sample.config (0, []))
  = Rejected (ResolveLogViewError
                ("Failed to fetch data view " +:+ double_quote +:+ "dv-1" +:+ double_quote
                   +:+ ": 503 Service Unavailable")
                (Reason "503 Service Unavailable")).
Proof. reflexivity. Qed.

Example resolveLogView_dispatch_samples :
  branch_of_type "index_name" = LegacyReference
  /\ branch_of_type "data_view" = DataViewReference
  /\ branch_of_type "kibana_advanced_setting" = KibanaAdvancedSettingReference
  /\ branch_of_type "elasticsearch_index" = KibanaAdvancedSettingReference.
Proof. repeat split. Qed.

Lemma getLogSources_failure_propagates_witness :
  resolveLogView Sample.render "@timestamp" "_doc" ["message"; "@message"]
    "nightly" (Sample.attributes "kibana_advanced_setting") Sample.dataViewsDown
    Sample.logSourcesDown Sample.noConfig (3, [DataViewsGet "dv-2"])
  = (Rejected (Reason "uiSettings unavailable"), (4, [DataViewsGet "dv-2"; GetLogSources])).
Proof.
  exact (getLogSources_failure_propagates Sample.render "@timestamp" "_doc"
           ["message"; "@message"] "nightly" (Sample.attributes "kibana_advanced_setting")
           Sample.dataViewsDown Sample.logSourcesDown Sample.noConfig
           3 [DataViewsGet "dv-2"] (Reason "uiSettings unavailable") 4 eq_refl eq_refl).
Defined.

(** ** The further properties at the sample inputs *)

Lemma join_app_witness :
  join "," (["logs-*-*"; "logs-*"] ++ ["filebeat-*"])%list
  = join "," ["logs-*-*"; "logs-*"] +:+ "," +:+ join "," ["filebeat-*"].
Proof. apply join_app; discriminate. Defined.

Lemma resolveLogView_rejected_inv_witness :
  exists cause,
    get Sample.dataViewsDown "dv-1" 0 = (Rejected cause, 1)
    /\ fst (resolveLogView Sample.render "@timestamp" "_doc" ["message"; "@message"]
              "default" (Sample.attributes "data_view") Sample.dataViewsDown
              Sample.logSources Sample.config (0, []))
       = Rejected (ResolveLogViewError
                     ("Failed to fetch data view " +:+ double_quote +:+ "dv-1"
                        +:+ double_quote +:+ ": " +:+ Sample.render cause) cause).
Proof.
  destruct (resolveLogView_rejected_inv Sample.render "@timestamp" "_doc"
              ["message"; "@message"] "default" (Sample.attributes "data_view")
              Sample.dataViewsDown Sample.logSources Sample.config 0 []
              (ResolveLogViewError
                 ("Failed to fetch data view " +:+ double_quote +:+ "dv-1"
                    +:+ double_quote +:+ ": 503 Service Unavailable")
                 (Reason "503 Service Unavailable"))
              (1, [DataViewsGet "dv-1"]) eq_refl)
    as [(Htype & _)
       |[(_ & cause & w' & Hget & Herror)
        |[(Htype & _)|(_ & Htype & _)]]];
    try discriminate Htype; try (now contradict Htype).
  exists cause. injection Herror as _ <-. split; reflexivity.
Defined.

Lemma resolveLogView_fields_of_reference_witness :
  exists result s',
    resolveLogView Sample.render "@timestamp" "_doc" ["message"; "@message"]
      "default" (Sample.attributes "data_view") Sample.dataViews Sample.logSources
      Sample.config (0, [])
    = (Fulfilled result, s')
    /\ fields result = ["host.name"; "event.time"]
    /\ fields result = dv_fields (dataViewReference result).
Proof.
  eexists _, _. split; [lazy; reflexivity|]. split; [reflexivity|].
  exact (resolveLogView_fields_of_reference Sample.render "@timestamp" "_doc"
           ["message"; "@message"] "default" (Sample.attributes "data_view")
           Sample.dataViews Sample.logSources Sample.config 0 [] _ _ eq_refl).
Defined.

Lemma resolveLogView_index_name_result_witness :
  exists result spec,
    resolveLogView Sample.render "@timestamp" "_doc" ["message"; "@message"]
      "default" (Sample.attributes "index_name") Sample.dataViews Sample.logSources
      Sample.config (0, [])
    = (Fulfilled result, (1, [DataViewsCreate spec false false]))
    /\ spec_title spec = "logs-*,filebeat-*"
    /\ indices result = "logs-*,filebeat-*"
    /\ dataViewReference result
       = {| dv_fields := ["message"];
            timeFieldName := Some "@timestamp";
            getIndexPattern := "logs-*,filebeat-*";
            getRuntimeMappings := ∅ |}.
Proof.
  exact (resolveLogView_index_name_result Sample.render "@timestamp" "_doc"
           ["message"; "@message"] "default" (Sample.attributes "index_name")
           Sample.dataViews Sample.logSources Sample.config 0 [] _ 1
           eq_refl eq_refl).
Defined.

Lemma resolveLogView_create_call_shape_witness :
  spec_id (created_spec "@timestamp" "default" "Production logs"
             "logs-*-*,logs-*,filebeat-*")
  = "log-view-default"
  /\ "Production logs" = name (Sample.attributes "kibana_advanced_setting")
  /\ "@timestamp" = "@timestamp"
  /\ true = true
  /\ false = false
  /\ false = false.
Proof.
  apply (resolveLogView_create_call_shape Sample.render "@timestamp" "_doc"
           ["message"; "@message"] "default" (Sample.attributes "kibana_advanced_setting")
           Sample.dataViews Sample.logSources Sample.config 0 []
           (created_spec "@timestamp" "default" "Production logs"
              "logs-*-*,logs-*,filebeat-*") false false).
  right; left. reflexivity.
Defined.

Lemma resolveLogView_created_id_injective_witness : "default" = "default".
Proof.
  apply (resolveLogView_created_id_injective Sample.render "@timestamp" "_doc"
           ["message"; "@message"]
           "default" (Sample.attributes "index_name") Sample.dataViews
           Sample.logSourcesDown Sample.config 0 []
           "default" (Sample.attributes "kibana_advanced_setting") Sample.dataViewsDown
           Sample.logSources Sample.noConfig 5 [GetLogSources]
           (created_spec "@timestamp" "default" "Production logs" "logs-*,filebeat-*")
           (created_spec "@timestamp" "default" "Production logs"
              "logs-*-*,logs-*,filebeat-*")
           false false false false).
  - left. reflexivity.
  - right; left. reflexivity.
  - reflexivity.
Defined.

Lemma resolveLogView_no_log_sources_witness :
  let run :=
    resolveLogView Sample.render "@timestamp" "_doc" ["message"; "@message"]
      "default" (Sample.attributes "kibana_advanced_setting") Sample.dataViews
      Sample.noLogSources Sample.config (0, []) in
  exists spec,
    spec_title spec = ""
    /\ snd (snd run) = [GetLogSources; DataViewsCreate spec false false]
    /\ (forall result, fst run = Fulfilled result -> indices result = "")
    /\ (forall dataView w2,
          create Sample.dataViews spec false false 1 = (Fulfilled dataView, w2) ->
          exists result, fst run = Fulfilled result).
Proof.
  exact (resolveLogView_no_log_sources Sample.render "@timestamp" "_doc"
           ["message"; "@message"] "default" (Sample.attributes "kibana_advanced_setting")
           Sample.dataViews Sample.noLogSources Sample.config 0 [] 1 eq_refl eq_refl).
Defined.

Example resolveLogView_no_log_sources_fulfilled :
  exists result,
    fst (resolveLogView Sample.render "@timestamp" "_doc" ["message"; "@message"]
           "default" (Sample.attributes "kibana_advanced_setting") Sample.dataViews
           Sample.noLogSources Sample.config (0, []))
    = Fulfilled result
    /\ indices result = ""
    /\ getIndexPattern (dataViewReference result) = "".
Proof. eexists. split; [lazy; reflexivity|]. split; reflexivity. Qed.
